(** * gcloud sql instances delete

    A shallow embedding of [Delete.Run]
    (google-cloud-sdk/lib/surface/sql/instances/delete.py) and the
    properties of the command that follow from it.

    The command is straight-line glue over external collaborators (the
    generated REST client, the resource parser, the console prompt, the
    operation waiter, the logger).  Each collaborator is a field of a
    [World]: a call either returns a value or raises a Python exception.
    [Run] is written in a small state-and-exception monad whose state
    holds the one local variable that outlives a raise ([operation_ref])
    and the trace of the collaborator calls issued so far. *)

From Stdlib Require Import ZArith List String Ascii Bool Lia.
Import ListNotations.

Local Open Scope string_scope.
Local Open Scope Z_scope.

(* ================================================================== *)
(** ** Python exceptions and the command monad *)

(** The source only ever asks one thing of an exception: whether it is an
    instance of [apitools.base.py.exceptions.HttpError] (the [except]
    clauses at lines 89 and 158).  [HttpError] stands for that class and
    its subclasses, [OtherError cls] for an exception of any other class. *)
Inductive exn : Type :=
| HttpError (status : Z) (text : string)
| OtherError (cls : string) (text : string).

Definition isinstance_HttpError (e : exn) : bool :=
  match e with
  | HttpError _ _ => true
  | OtherError _ _ => false
  end.

Inductive Result (A : Type) : Type :=
| Return (a : A)
| Raise (e : exn).
Arguments Return {A} a.
Arguments Raise {A} e.

Module Py.

(** [M S A]: a computation over a state [S] that returns an [A] or
    raises.  The state survives a raise, as Python locals do. *)
Definition M (S A : Type) : Type := S -> Result A * S.

Definition ret {S A} (a : A) : M S A := fun s => (Return a, s).

Definition raise {S A} (e : exn) : M S A := fun s => (Raise e, s).

Definition bind {S A B} (m : M S A) (k : A -> M S B) : M S B :=
  fun s =>
    match m s with
    | (Return a, s') => k a s'
    | (Raise e, s') => (Raise e, s')
    end.

Definition get {S} : M S S := fun s => (Return s, s).

Definition modify {S} (f : S -> S) : M S unit := fun s => (Return tt, f s).

(** [try: body / except cls as e: handler e].  An exception that is not
    an instance of [cls] passes through untouched. *)
Definition try_except {S A} (body : M S A) (cls : exn -> bool)
           (handler : exn -> M S A) : M S A :=
  fun s =>
    match body s with
    | (Return a, s') => (Return a, s')
    | (Raise e, s') => if cls e then handler e s' else (Raise e, s')
    end.

End Py.

Declare Scope py_scope.
Delimit Scope py_scope with py.
Notation "x <- m ;; k" := (Py.bind m (fun x => k))
  (at level 100, m at next level, right associativity) : py_scope.
Notation "m ;; k" := (Py.bind m (fun _ => k))
  (at level 100, right associativity) : py_scope.

(* ================================================================== *)
(** ** datetime.strftime *)

Module Datetime.

(** A [datetime.datetime]: the calendar fields and, for an aware value,
    the offset of its [tzinfo] from UTC in seconds ([None]: naive). *)
Record datetime : Type := {
  year : Z;
  month : Z;
  day : Z;
  hour : Z;
  minute : Z;
  second : Z;
  microsecond : Z;
  utcoffset : option Z
}.

Definition is_leap (y : Z) : bool :=
  ((y mod 4 =? 0) && (negb (y mod 100 =? 0) || (y mod 400 =? 0)))%bool.

Definition days_in_month (y m : Z) : Z :=
  if m =? 2 then (if is_leap y then 29 else 28)
  else if (m =? 4) || (m =? 6) || (m =? 9) || (m =? 11) then 30
  else 31.

Definition in_range (lo x hi : Z) : bool := ((lo <=? x) && (x <=? hi))%bool.

(** What the [datetime] constructor accepts. *)
Definition valid (dt : datetime) : bool :=
  (in_range 1 (year dt) 9999
   && in_range 1 (month dt) 12
   && in_range 1 (day dt) (days_in_month (year dt) (month dt))
   && in_range 0 (hour dt) 23
   && in_range 0 (minute dt) 59
   && in_range 0 (second dt) 59
   && in_range 0 (microsecond dt) 999999
   && match utcoffset dt with
      | None => true
      | Some off => in_range (-86399) off 86399
      end)%bool.

Definition digit_char (d : Z) : ascii := ascii_of_nat (48 + Z.to_nat d).

Fixpoint zfill_onto (w : nat) (n : Z) (acc : string) : string :=
  match w with
  | O => acc
  | S w' => zfill_onto w' (n / 10) (String (digit_char (n mod 10)) acc)
  end.

(** [n] as a decimal number zero-padded to [w] digits. *)
Definition zfill (w : nat) (n : Z) : string := zfill_onto w n "".

(** The directives [Run]'s format uses, with the widths the Python
    documentation gives them; [%%] is a percent sign and any other
    directive is copied as it stands.  Below the year 1000 the C
    libraries disagree on the padding of [%Y]; what is stated about the
    printed year is stated from 1000 on. *)
Definition directive (dt : datetime) (d : ascii) : string :=
  match d with
  | "Y"%char => zfill 4 (year dt)
  | "m"%char => zfill 2 (month dt)
  | "d"%char => zfill 2 (day dt)
  | "H"%char => zfill 2 (hour dt)
  | "M"%char => zfill 2 (minute dt)
  | "S"%char => zfill 2 (second dt)
  | "f"%char => zfill 6 (microsecond dt)
  | "%"%char => "%"
  | _ => String "%" (String d "")
  end.

(** [dt.strftime(fmt)]: the fields of [dt] as they are; no conversion
    between time zones takes place. *)
Fixpoint strftime (dt : datetime) (fmt : string) : string :=
  match fmt with
  | "" => ""
  | String "%" (String d rest) => directive dt d ++ strftime dt rest
  | String c rest => String c (strftime dt rest)
  end.

(** *** Reading a timestamp back *)

Definition digit_value (c : ascii) : option Z :=
  let n := Z.of_nat (nat_of_ascii c) in
  if in_range 48 n 57 then Some (n - 48) else None.

Definition is_digit (c : ascii) : bool :=
  match digit_value c with Some _ => true | None => false end.

(** [matches pat s]: [s] has the shape [pat], where a ['9'] of the
    pattern stands for any decimal digit and every other character for
    itself. *)
Fixpoint matches (pat s : string) : bool :=
  match pat, s with
  | "", "" => true
  | String p pat', String c s' =>
      ((if Ascii.eqb p "9" then is_digit c else Ascii.eqb p c)
       && matches pat' s')%bool
  | _, _ => false
  end.

Definition expiry_time_pattern : string := "9999-99-99T99:99:99.999999Z".

Fixpoint read_digits (w : nat) (acc : Z) (s : string) : option (Z * string) :=
  match w with
  | O => Some (acc, s)
  | S w' =>
      match s with
      | String c s' =>
          match digit_value c with
          | Some d => read_digits w' (10 * acc + d) s'
          | None => None
          end
      | "" => None
      end
  end.

Definition expect (c : ascii) (s : string) : option string :=
  match s with
  | String c' s' => if Ascii.eqb c c' then Some s' else None
  | "" => None
  end.

Definition obind {A B} (o : option A) (k : A -> option B) : option B :=
  match o with Some a => k a | None => None end.

(** Reads [YYYY-MM-DDTHH:MM:SS.ffffffZ] as RFC 3339 does: the fields
    are a time in UTC, which is what the trailing [Z] says. *)
Definition read_utc_timestamp (s : string) : option datetime :=
  obind (read_digits 4 0 s) (fun '(y, s) =>
  obind (expect "-" s) (fun s =>
  obind (read_digits 2 0 s) (fun '(mo, s) =>
  obind (expect "-" s) (fun s =>
  obind (read_digits 2 0 s) (fun '(d, s) =>
  obind (expect "T" s) (fun s =>
  obind (read_digits 2 0 s) (fun '(h, s) =>
  obind (expect ":" s) (fun s =>
  obind (read_digits 2 0 s) (fun '(mi, s) =>
  obind (expect ":" s) (fun s =>
  obind (read_digits 2 0 s) (fun '(se, s) =>
  obind (expect "." s) (fun s =>
  obind (read_digits 6 0 s) (fun '(us, s) =>
  obind (expect "Z" s) (fun s =>
  match s with
  | "" => Some {| year := y; month := mo; day := d; hour := h;
                  minute := mi; second := se; microsecond := us;
                  utcoffset := Some 0 |}
  | _ => None
  end)))))))))))))).

(** *** The instant a datetime denotes *)

Definition days_before_year (y : Z) : Z :=
  (y - 1) * 365 + (y - 1) / 4 - (y - 1) / 100 + (y - 1) / 400.

Fixpoint days_before_month_from (y : Z) (m : nat) : Z :=
  match m with
  | O => 0
  | S m' => days_before_month_from y m' + days_in_month y (Z.of_nat m)
  end.

Definition days_before_month (y m : Z) : Z :=
  days_before_month_from y (Z.to_nat (m - 1)).

(** [date.toordinal()]: 1 for 0001-01-01. *)
Definition toordinal (dt : datetime) : Z :=
  days_before_year (year dt) + days_before_month (year dt) (month dt) + day dt.

(** Microseconds from 1970-01-01T00:00:00 on the datetime's own clock. *)
Definition wall_clock_us (dt : datetime) : Z :=
  (((toordinal dt - 719163) * 86400
    + hour dt * 3600 + minute dt * 60 + second dt) * 1000000)
  + microsecond dt.

(** Microseconds since the Unix epoch of an aware datetime: its wall
    clock less its offset from UTC.  A naive datetime names no instant. *)
Definition instant_us (dt : datetime) : option Z :=
  match utcoffset dt with
  | Some off => Some (wall_clock_us dt - off * 1000000)
  | None => None
  end.

(** The instant an RFC 3339 UTC timestamp string names. *)
Definition instant_of_utc_timestamp (s : string) : option Z :=
  obind (read_utc_timestamp s) instant_us.

End Datetime.

(* ================================================================== *)
(** ** Messages and resource references *)

(** [sql_messages] and the resource parser are generated code outside
    this file; of each message and reference only the fields [Run] reads
    or writes are kept, under the names [Run] uses for them. *)

(** Modelled from the spec: the message classes of [sql_messages] are
    not among the sources.  The data model of the spec gives an instance
    resource a [settings.retainBackupsOnDelete] boolean; the field is
    optional here because [Run] only tests its truth value, and a field
    the service left unset reads as [None], which is false. *)
Record Settings : Type := {
  retainBackupsOnDelete : option bool
}.

Record DatabaseInstance : Type := {
  settings : Settings
}.

Record Operation : Type := {
  name : string;
  status : string
}.

Record InstanceRef : Type := {
  ref_project : string;
  ref_instance : string
}.

Record OperationRef : Type := {
  op_project : string;
  op_operation : string
}.

Record SqlInstancesGetRequest : Type := {
  get_project : string;
  get_instance : string
}.

Record SqlInstancesDeleteRequest : Type := {
  instance : string;
  project : string;
  enableFinalBackup : bool;
  finalBackupTtlDays : option Z;
  finalBackupDescription : option string;
  finalBackupExpiryTime : option string
}.

Record SqlOperationsGetRequest : Type := {
  opget_project : string;
  opget_operation : string
}.

(** The parsed command line ([argparse.Namespace]). *)
Record Args : Type := {
  args_instance : string;
  async_ : bool;
  enable_final_backup : bool;
  final_backup_description : option string;
  final_backup_expiry_time : option Datetime.datetime;
  final_backup_retention_days : option Z
}.

(** Truth value of an optional boolean field. *)
Definition truthy (b : option bool) : bool :=
  match b with
  | Some true => true
  | _ => false
  end.

(* ================================================================== *)
(** ** Collaborator calls *)

(** What [log.debug] is handed for its [%s]: [six.text_type] of an
    exception, of [None] or of an operation reference.  The rendering is
    left symbolic. *)
Inductive PyObject : Type :=
| ObjExn (e : exn)
| ObjNone
| ObjOperationRef (r : OperationRef).

Definition obj_of_operation_ref (r : option OperationRef) : PyObject :=
  match r with
  | Some r => ObjOperationRef r
  | None => ObjNone
  end.

(** One entry of the trace per call that leaves [Run], in program order. *)
Inductive Call : Type :=
| CValidateInstanceName (instance_name : string)
| CParse (instance_name : string) (collection : string)
| CInstancesGet (req : SqlInstancesGetRequest)
| CLogDebug (fmt : string) (arg : PyObject)
| CPromptContinue (message : string)
| CInstancesDelete (req : SqlInstancesDeleteRequest)
| CCreate (collection : string) (operation : string) (project : string)
| COperationsGet (req : SqlOperationsGetRequest)
| CWaitForOperation (operation_ref : OperationRef) (message : string)
| CLogDeletedResource (instance_ref : InstanceRef).

(** How each collaborator answers.  [resource_parser_Parse] stands for
    the parse together with the [core/project] lookup ([GetOrFail]) it is
    handed; [WaitForOperation] returns once the waiter has seen the
    operation end well and raises otherwise. *)
Record World : Type := {
  ValidateInstanceName : string -> Result unit;
  resource_parser_Parse : string -> string -> Result InstanceRef;
  instances_Get : SqlInstancesGetRequest -> Result DatabaseInstance;
  PromptContinue : string -> Result bool;
  instances_Delete : SqlInstancesDeleteRequest -> Result Operation;
  resource_parser_Create : string -> string -> string -> Result OperationRef;
  operations_Get : SqlOperationsGetRequest -> Result Operation;
  WaitForOperation : OperationRef -> string -> Result unit
}.

(** The requests that go to the remote service. *)
Definition is_remote_request (c : Call) : bool :=
  match c with
  | CInstancesGet _ | CInstancesDelete _ | COperationsGet _
  | CWaitForOperation _ _ => true
  | _ => false
  end.

Definition is_prompt (c : Call) : bool :=
  match c with CPromptContinue _ => true | _ => false end.

Definition is_delete (c : Call) : bool :=
  match c with CInstancesDelete _ => true | _ => false end.

Definition is_operations_get (c : Call) : bool :=
  match c with COperationsGet _ => true | _ => false end.

Definition is_wait (c : Call) : bool :=
  match c with CWaitForOperation _ _ => true | _ => false end.

Definition is_log_debug (c : Call) : bool :=
  match c with CLogDebug _ _ => true | _ => false end.

(** The calls of the second [try] block that may raise: the delete
    request and what follows it. *)
Definition from_delete_on (c : Call) : bool :=
  match c with
  | CInstancesDelete _ | CCreate _ _ _ | COperationsGet _
  | CWaitForOperation _ _ => true
  | _ => false
  end.

(** The exception the world answers a call with, if it answers with one.
    The logger does not raise. *)
Definition raised_by (w : World) (c : Call) : option exn :=
  let of_result {A} (r : Result A) :=
    match r with Raise e => Some e | Return _ => None end in
  match c with
  | CValidateInstanceName n => of_result (ValidateInstanceName w n)
  | CParse n coll => of_result (resource_parser_Parse w n coll)
  | CInstancesGet req => of_result (instances_Get w req)
  | CPromptContinue msg => of_result (PromptContinue w msg)
  | CInstancesDelete req => of_result (instances_Delete w req)
  | CCreate coll op proj => of_result (resource_parser_Create w coll op proj)
  | COperationsGet req => of_result (operations_Get w req)
  | CWaitForOperation r msg => of_result (WaitForOperation w r msg)
  | CLogDebug _ _ | CLogDeletedResource _ => None
  end.

(* ================================================================== *)
(** ** The command *)

Record State : Type := {
  operation_ref : option OperationRef;
  trace : list Call
}.

Definition initial_state : State :=
  {| operation_ref := None; trace := [] |}.

Definition Cmd (A : Type) : Type := Py.M State A.

(** Issue a call: it enters the trace, then the world answers. *)
Definition call {A} (c : Call) (answer : Result A) : Cmd A :=
  fun s =>
    (answer, {| operation_ref := operation_ref s; trace := trace s ++ [c] |}).

Definition set_operation_ref (r : option OperationRef) : Cmd unit :=
  Py.modify (fun s => {| operation_ref := r; trace := trace s |}).

Definition get_operation_ref : Cmd (option OperationRef) :=
  Py.bind Py.get (fun s => Py.ret (operation_ref s)).

Definition log_debug (fmt : string) (arg : PyObject) : Cmd unit :=
  call (CLogDebug fmt arg) (Return tt).

Definition log_DeletedResource (r : InstanceRef) : Cmd unit :=
  call (CLogDeletedResource r) (Return tt).

Definition prompt_retained_backups : string :=
  "All of the instance data will be lost except the existing backups"
  ++ " when the instance is deleted.".

Definition prompt_all_data_lost : string :=
  "All of the instance data will be lost when the instance is deleted.".

Definition expiry_time_format : string := "%Y-%m-%dT%H:%M:%S.%fZ".

Section Command.

Variable w : World.

Local Open Scope py_scope.

(** [Delete.Run], line by line.  The client built at lines 71-73 is the
    bundle of handles the calls below go through; building it sends
    nothing to the service. *)
Definition Run (args : Args) : Cmd (option Operation) :=
  set_operation_ref None ;;
  call (CValidateInstanceName (args_instance args))
       (ValidateInstanceName w (args_instance args)) ;;
  instance_ref <-
    call (CParse (args_instance args) "sql.instances")
         (resource_parser_Parse w (args_instance args) "sql.instances") ;;
  instance_resource <-
    Py.try_except
      (let req := {| get_project := ref_project instance_ref;
                     get_instance := ref_instance instance_ref |} in
       r <- call (CInstancesGet req) (instances_Get w req) ;;
       Py.ret (Some r))
      isinstance_HttpError
      (fun error =>
         log_debug "Ignoring the error to get instance resource : %s"
                   (ObjExn error) ;;
         Py.ret None) ;;
  let prompt :=
    if match instance_resource with
       | Some r => truthy (retainBackupsOnDelete (settings r))
       | None => false
       end
    then prompt_retained_backups
    else prompt_all_data_lost in
  proceed <- call (CPromptContinue prompt) (PromptContinue w prompt) ;;
  if negb proceed then Py.ret None
  else
    let expiry_time := @None string in
    let retention_days :=
      match final_backup_retention_days args with
      | Some days => if days >? 0 then Some days else None
      | None => None
      end in
    let expiry_time :=
      match final_backup_expiry_time args with
      | Some t => Some (Datetime.strftime t expiry_time_format)
      | None => expiry_time
      end in
    Py.try_except
      (let req := {| instance := ref_instance instance_ref;
                     project := ref_project instance_ref;
                     enableFinalBackup := enable_final_backup args;
                     finalBackupTtlDays := retention_days;
                     finalBackupDescription := final_backup_description args;
                     finalBackupExpiryTime := expiry_time |} in
       result <- call (CInstancesDelete req) (instances_Delete w req) ;;
       ref <- call (CCreate "sql.operations" (name result)
                            (ref_project instance_ref))
                   (resource_parser_Create w "sql.operations" (name result)
                                           (ref_project instance_ref)) ;;
       set_operation_ref (Some ref) ;;
       if async_ args then
         let req := {| opget_project := op_project ref;
                       opget_operation := op_operation ref |} in
         op <- call (COperationsGet req) (operations_Get w req) ;;
         Py.ret (Some op)
       else
         call (CWaitForOperation ref "Deleting Cloud SQL instance")
              (WaitForOperation w ref "Deleting Cloud SQL instance") ;;
         log_DeletedResource instance_ref ;;
         Py.ret None)
      isinstance_HttpError
      (fun error =>
         ref <- get_operation_ref ;;
         log_debug "operation : %s" (obj_of_operation_ref ref) ;;
         Py.raise error).

(** One invocation of the command: its outcome and what it did. *)
Definition run_result (args : Args) : Result (option Operation) :=
  fst (Run args initial_state).

Definition run_trace (args : Args) : list Call :=
  trace (snd (Run args initial_state)).

Definition run_operation_ref (args : Args) : option OperationRef :=
  operation_ref (snd (Run args initial_state)).

End Command.


Definition is_deleted_log (c : Call) : bool :=
  match c with CLogDeletedResource _ => true | _ => false end.

(** The part of a trace that comes before the delete request. *)
Fixpoint before_delete (l : list Call) : list Call :=
  match l with
  | [] => []
  | c :: l' => if from_delete_on c then [] else c :: before_delete l'
  end.

(* ================================================================== *)
(** ** The command line *)

(** Where an argument is added: the command's parser or one of the
    argument groups made from it. *)
Inductive Target : Type :=
| Parser
| Group (id : nat).

Inductive Completer : Type :=
| InstanceCompleter.

(** What [Args] asks for, one entry per call, in program order. *)
Inductive Registration : Type :=
| ASYNC_FLAG_AddToParser (target : Target)
| add_argument (target : Target) (dest : string) (completer : Completer)
               (help : string)
| AddEnableFinalBackup (target : Target)
| AddFinalbackupDescription (target : Target)
| add_mutually_exclusive_group (target : Target) (required : bool)
                               (group : nat)
| AddFinalBackupExpiryTimeArgument (target : Target)
| AddFinalbackupRetentionDays (target : Target).

Definition is_group (r : Registration) : bool :=
  match r with add_mutually_exclusive_group _ _ _ => true | _ => false end.

Definition Setup (A : Type) : Type := Py.M (list Registration) A.

Definition register (r : Registration) : Setup unit :=
  Py.modify (fun regs => regs ++ [r])%list.

(** [target.add_mutually_exclusive_group(required=...)]: the new group,
    numbered after the groups made before it. *)
Definition new_group (target : Target) (required : bool) : Setup Target :=
  fun regs =>
    let id := List.length (filter is_group regs) in
    (Return (Group id),
     (regs ++ [add_mutually_exclusive_group target required id])%list).

Section Arguments.

Local Open Scope py_scope.

(** [Delete.Args], line by line. *)
Definition Delete_Args (parser : Target) : Setup unit :=
  register (ASYNC_FLAG_AddToParser parser) ;;
  register (add_argument parser "instance" InstanceCompleter
                         "Cloud SQL instance ID.") ;;
  register (AddEnableFinalBackup parser) ;;
  register (AddFinalbackupDescription parser) ;;
  expiration <- new_group parser false ;;
  register (AddFinalBackupExpiryTimeArgument expiration) ;;
  register (AddFinalbackupRetentionDays expiration).

End Arguments.

(** The arguments of the command as calliope hands them to a fresh
    parser. *)
Definition declared_arguments : list Registration :=
  snd (Delete_Args Parser []).

Definition target_of (r : Registration) : Target :=
  match r with
  | ASYNC_FLAG_AddToParser t | add_argument t _ _ _
  | AddEnableFinalBackup t | AddFinalbackupDescription t
  | add_mutually_exclusive_group t _ _
  | AddFinalBackupExpiryTimeArgument t | AddFinalbackupRetentionDays t => t
  end.

Definition in_group (g : nat) (r : Registration) : bool :=
  match target_of r with
  | Group g' => Nat.eqb g g'
  | Parser => false
  end.

Definition is_some {A} (o : option A) : bool :=
  match o with Some _ => true | None => false end.

(** Modelled from the spec: the helpers of [command_lib.sql.flags] and
    [base.ASYNC_FLAG] are not among the sources.  By the command line
    surface the spec lists, each adds the flag its name says, and the
    flag is on the command line when the attribute of the namespace that
    [Run] reads for it is set. *)
Definition supplied (args : Args) (r : Registration) : bool :=
  match r with
  | ASYNC_FLAG_AddToParser _ => async_ args
  | add_argument _ _ _ _ => true
  | AddEnableFinalBackup _ => enable_final_backup args
  | AddFinalbackupDescription _ => is_some (final_backup_description args)
  | add_mutually_exclusive_group _ _ _ => false
  | AddFinalBackupExpiryTimeArgument _ =>
      is_some (final_backup_expiry_time args)
  | AddFinalbackupRetentionDays _ =>
      is_some (final_backup_retention_days args)
  end.

(** What argparse checks of a mutually exclusive group: at most one of
    its arguments is on the command line, and at least one when the
    group is required. *)
Definition group_respected (regs : list Registration) (args : Args)
           (required : bool) (g : nat) : bool :=
  let n := List.length
             (filter (fun r => in_group g r && supplied args r)%bool regs) in
  ((n <=? 1)%nat && (negb required || (1 <=? n)%nat))%bool.

Definition groups_respected (regs : list Registration) (args : Args) : bool :=
  forallb (fun r =>
             match r with
             | add_mutually_exclusive_group _ required g =>
                 group_respected regs args required g
             | _ => true
             end) regs.

(* ================================================================== *)
(** ** Sample invocations *)

Module Example.

Definition db1 : InstanceRef :=
  {| ref_project := "my-project"; ref_instance := "db1" |}.

Definition pending : Operation := {| name := "op-42"; status := "PENDING" |}.

Definition snapshot : Operation := {| name := "op-42"; status := "RUNNING" |}.

Definition keeps_backups : DatabaseInstance :=
  {| settings := {| retainBackupsOnDelete := Some true |} |}.

Definition drops_backups : DatabaseInstance :=
  {| settings := {| retainBackupsOnDelete := None |} |}.

Definition forbidden : exn := HttpError 403 "The client is not authorized.".

Definition unreachable : exn :=
  OtherError "ServerNotFoundError" "Unable to find the server.".

Definition bad_name : exn :=
  OtherError "ArgumentError" "Instance names cannot contain ':'.".

(** A world that plays back the given answers: the name check, the
    fetch, the user at the prompt, the delete, the operation lookup and
    the waiter.  Names resolve into project [my-project]. *)
Definition scripted (checked : Result unit)
           (fetched : Result DatabaseInstance) (answer : Result bool)
           (deleted : Result Operation) (looked_up : Result Operation)
           (waited : Result unit) : World :=
  {| ValidateInstanceName := fun _ => checked;
     resource_parser_Parse := fun n _ =>
       Return {| ref_project := "my-project"; ref_instance := n |};
     instances_Get := fun _ => fetched;
     PromptContinue := fun _ => answer;
     instances_Delete := fun _ => deleted;
     resource_parser_Create := fun _ op proj =>
       Return {| op_project := proj; op_operation := op |};
     operations_Get := fun _ => looked_up;
     WaitForOperation := fun _ _ => waited |}.

(** [gcloud sql instances delete db1] *)
Definition delete_db1 : Args :=
  {| args_instance := "db1";
     async_ := false;
     enable_final_backup := false;
     final_backup_description := None;
     final_backup_expiry_time := None;
     final_backup_retention_days := None |}.

(** [gcloud sql instances delete db1 --async] *)
Definition delete_db1_async : Args :=
  {| args_instance := "db1";
     async_ := true;
     enable_final_backup := false;
     final_backup_description := None;
     final_backup_expiry_time := None;
     final_backup_retention_days := None |}.

(** [gcloud sql instances delete my-project:db1] *)
Definition delete_colon_name : Args :=
  {| args_instance := "my-project:db1";
     async_ := false;
     enable_final_backup := false;
     final_backup_description := None;
     final_backup_expiry_time := None;
     final_backup_retention_days := None |}.

(** [--enable-final-backup --final-backup-retention-days=DAYS] *)
Definition delete_db1_keep (days : Z) : Args :=
  {| args_instance := "db1";
     async_ := false;
     enable_final_backup := true;
     final_backup_description := Some "last";
     final_backup_expiry_time := None;
     final_backup_retention_days := Some days |}.

(** Noon on 2025-01-01 on a clock two hours ahead of UTC, that is
    10:00 UTC. *)
Definition noon_plus_two : Datetime.datetime :=
  {| Datetime.year := 2025; Datetime.month := 1; Datetime.day := 1;
     Datetime.hour := 12; Datetime.minute := 0; Datetime.second := 0;
     Datetime.microsecond := 0; Datetime.utcoffset := Some 7200 |}.

(** The same wall clock reading on a UTC clock. *)
Definition noon_utc : Datetime.datetime :=
  {| Datetime.year := 2025; Datetime.month := 1; Datetime.day := 1;
     Datetime.hour := 12; Datetime.minute := 0; Datetime.second := 0;
     Datetime.microsecond := 0; Datetime.utcoffset := Some 0 |}.

(** [--enable-final-backup --final-backup-expiry-time=T] *)
Definition delete_db1_until (t : Datetime.datetime) : Args :=
  {| args_instance := "db1";
     async_ := false;
     enable_final_backup := true;
     final_backup_description := None;
     final_backup_expiry_time := Some t;
     final_backup_retention_days := None |}.

(** The delete request of [delete_db1_keep], with the days it should
    carry. *)
Definition keep_request (ttl : option Z) : SqlInstancesDeleteRequest :=
  {| instance := "db1"; project := "my-project";
     enableFinalBackup := true; finalBackupTtlDays := ttl;
     finalBackupDescription := Some "last";
     finalBackupExpiryTime := None |}.

Definition db1_get : SqlInstancesGetRequest :=
  {| get_project := "my-project"; get_instance := "db1" |}.

Definition db1_delete : SqlInstancesDeleteRequest :=
  {| instance := "db1"; project := "my-project";
     enableFinalBackup := false; finalBackupTtlDays := None;
     finalBackupDescription := None; finalBackupExpiryTime := None |}.

Definition op42 : OperationRef :=
  {| op_project := "my-project"; op_operation := "op-42" |}.

Definition op42_get : SqlOperationsGetRequest :=
  {| opget_project := "my-project"; opget_operation := "op-42" |}.

(** The name check rejects the identifier. *)
Definition picky : World :=
  scripted (Raise bad_name) (Return drops_backups) (Return true)
           (Return pending) (Return snapshot) (Return tt).

(** The user says no; the instance keeps its backups. *)
Definition declining : World :=
  scripted (Return tt) (Return keeps_backups) (Return false)
           (Return pending) (Return snapshot) (Return tt).

(** The instance keeps its backups and the user says yes. *)
Definition retaining : World :=
  scripted (Return tt) (Return keeps_backups) (Return true)
           (Return pending) (Return snapshot) (Return tt).

(** The caller may delete but not read. *)
Definition no_read_access : World :=
  scripted (Return tt) (Raise forbidden) (Return true)
           (Return pending) (Return snapshot) (Return tt).

(** The server cannot be reached. *)
Definition offline : World :=
  scripted (Return tt) (Raise unreachable) (Return true)
           (Return pending) (Return snapshot) (Return tt).

(** The delete request is refused. *)
Definition delete_refused : World :=
  scripted (Return tt) (Return drops_backups) (Return true)
           (Raise forbidden) (Return snapshot) (Return tt).

(** Everything goes well and the user says yes. *)
Definition smooth : World :=
  scripted (Return tt) (Return drops_backups) (Return true)
           (Return pending) (Return snapshot) (Return tt).

Definition missing_project : exn :=
  OtherError "RequiredPropertyError" "The required property [project] is not set.".

Definition unattended : exn :=
  OtherError "UnattendedPromptError" "This prompt could not be answered.".

Definition operation_failed : exn :=
  OtherError "OperationError" "The operation ended with an error.".

(** No project is configured: the name does not resolve. *)
Definition no_project : World :=
  {| ValidateInstanceName := ValidateInstanceName smooth;
     resource_parser_Parse := fun _ _ => Raise missing_project;
     instances_Get := instances_Get smooth;
     PromptContinue := PromptContinue smooth;
     instances_Delete := instances_Delete smooth;
     resource_parser_Create := resource_parser_Create smooth;
     operations_Get := operations_Get smooth;
     WaitForOperation := WaitForOperation smooth |}.

(** Nobody is there to answer the prompt. *)
Definition nobody_there : World :=
  scripted (Return tt) (Return drops_backups) (Raise unattended)
           (Return pending) (Return snapshot) (Return tt).

(** The delete is accepted but the operation ends badly. *)
Definition ends_badly : World :=
  scripted (Return tt) (Return drops_backups) (Return true)
           (Return pending) (Return snapshot) (Raise operation_failed).

(** No read access, and then the delete is refused as well. *)
Definition refused_twice : World :=
  scripted (Return tt) (Raise forbidden) (Return true)
           (Raise forbidden) (Return snapshot) (Return tt).

(** [--final-backup-expiry-time] and [--final-backup-retention-days]
    together, which the parser does not let through. *)
Definition both_expiry_flags : Args :=
  {| args_instance := "db1";
     async_ := false;
     enable_final_backup := true;
     final_backup_description := None;
     final_backup_expiry_time := Some noon_utc;
     final_backup_retention_days := Some 7 |}.

End Example.

(* ================================================================== *)
(** ** Proof support *)

Local Open Scope list_scope.

Lemma split_nil {A} (pre : list A) x post : [] = pre ++ x :: post -> False.
Proof. destruct pre; discriminate. Qed.

Lemma split_cons {A} (a : A) l pre x post :
  a :: l = pre ++ x :: post ->
  (pre = [] /\ a = x /\ l = post) \/
  (exists pre', pre = a :: pre' /\ l = pre' ++ x :: post).
Proof.
  destruct pre as [|b pre']; cbn; intros H; inversion H; subst; eauto.
Qed.

(** Walk a trace that is known in full, looking for the place where it
    was split. *)
Ltac split_trace H :=
  lazymatch type of H with
  | [] = _ ++ _ :: _ => exfalso; exact (split_nil _ _ _ H)
  | _ :: _ = _ ++ _ :: _ =>
      let pre' := fresh "pre" in
      let E := fresh "E" in
      let H' := fresh "H" in
      destruct (split_cons _ _ _ _ _ H) as [(E & H' & _) | (pre' & E & H')];
      [ first [ discriminate H' | injection H' as H'; subst | subst ]
      | subst; split_trace H' ]
  end.

(** Take a membership in a trace known in full apart, dropping the
    entries that cannot be the one looked for. *)
Ltac in_inv H :=
  cbn [In] in H;
  lazymatch type of H with
  | _ \/ _ => destruct H as [H|H]; [ try discriminate H | in_inv H ]
  | False => destruct H
  | _ => idtac
  end.

(** Unfold the command down to the answers of the world. *)
Ltac unfold_run :=
  unfold run_result, run_trace, run_operation_ref, Run;
  cbv [Py.bind Py.try_except Py.ret Py.raise Py.modify Py.get call
       set_operation_ref get_operation_ref log_debug log_DeletedResource
       initial_state];
  cbn [trace operation_ref app fst snd].

(** Branch on the next answer that steers the control flow. *)
Ltac run_step :=
  match goal with
  | |- context [match ?x with _ => _ end] =>
      lazymatch x with
      | ValidateInstanceName _ _ => destruct x as [[]|?] eqn:?
      | resource_parser_Parse _ _ _ => destruct x eqn:?
      | instances_Get _ _ => destruct x eqn:?
      | PromptContinue _ _ => destruct x as [[|]|?] eqn:?
      | instances_Delete _ _ => destruct x eqn:?
      | resource_parser_Create _ _ _ _ => destruct x eqn:?
      | operations_Get _ _ => destruct x eqn:?
      | WaitForOperation _ _ _ => destruct x as [[]|?] eqn:?
      | isinstance_HttpError _ => destruct x eqn:?
      | async_ _ => destruct x eqn:?
      end;
      cbn [trace operation_ref app fst snd negb]
  end.

Ltac run_cases := unfold_run; repeat run_step.

(** Two answers of the world to one call are one answer. *)
Ltac same_answers :=
  repeat match goal with
         | H1 : ?call = _, H2 : ?call = _ |- _ =>
             rewrite H1 in H2;
             first [ discriminate H2 | injection H2 as H2; try subst ]
         end.

Local Opaque Datetime.strftime.

(* ================================================================== *)
(** ** The confirmation gate *)

(** C1.  In every execution a DeleteInstance request is preceded by a
    confirmation prompt that the user accepted; and when the user
    declines the prompt, the trace holds no delete request and [Run]
    returns [None] without raising. *)
Theorem delete_only_after_accepted_prompt (w : World) (args : Args) :
  (forall pre req post,
      run_trace w args = pre ++ CInstancesDelete req :: post ->
      exists msg,
        In (CPromptContinue msg) pre /\ PromptContinue w msg = Return true)
  /\
  (forall msg,
      In (CPromptContinue msg) (run_trace w args) ->
      PromptContinue w msg = Return false ->
      (forall req, ~ In (CInstancesDelete req) (run_trace w args))
      /\ run_result w args = Return None).
Proof.
  split.
  - intros pre req post. run_cases; intros H; split_trace H;
      eexists; (split; [ cbn; eauto 10 | eassumption ]).
  - intros msg. run_cases; intros Hin Hno; in_inv Hin;
      injection Hin as Hin; subst; try congruence;
      (split; [ intros req' F; in_inv F | reflexivity ]).
Qed.

Lemma declined_prompt_run :
  run_result Example.declining Example.delete_db1 = Return None.
Proof.
  apply (proj2 (delete_only_after_accepted_prompt
                  Example.declining Example.delete_db1)
               prompt_retained_backups).
  - vm_compute. auto.
  - reflexivity.
Defined.

(* ================================================================== *)
(** ** Validation comes first *)

(** C2.  When the name check rejects the instance identifier, [Run]
    raises the check's own error and nothing but the check itself has
    happened: no request has gone to the remote service. *)
Theorem malformed_name_fails_before_any_request
        (w : World) (args : Args) (e : exn) :
  ValidateInstanceName w (args_instance args) = Raise e ->
  run_result w args = Raise e
  /\ run_trace w args = [CValidateInstanceName (args_instance args)]
  /\ (forall c, In c (run_trace w args) -> is_remote_request c = false).
Proof.
  intros H.
  assert (T : run_trace w args = [CValidateInstanceName (args_instance args)])
    by (unfold_run; rewrite H; reflexivity).
  split; [ unfold_run; rewrite H; reflexivity | split; [ exact T | ] ].
  rewrite T. intros c Hc. in_inv Hc. subst c. reflexivity.
Qed.

Lemma colon_name_rejected :
  ValidateInstanceName Example.picky "my-project:db1" = Raise Example.bad_name
  /\ run_result Example.picky Example.delete_colon_name
     = Raise Example.bad_name
  /\ run_trace Example.picky Example.delete_colon_name
     = [CValidateInstanceName "my-project:db1"]
  /\ (forall c,
         In c (run_trace Example.picky Example.delete_colon_name) ->
         is_remote_request c = false).
Proof.
  split; [ reflexivity | ].
  apply (malformed_name_fails_before_any_request
           Example.picky Example.delete_colon_name Example.bad_name).
  reflexivity.
Defined.

(* ================================================================== *)
(** ** The best-effort fetch *)

(** C10.  An exception of the fetch that is not an [HttpError] is not
    caught: [Run] raises it, and the trace holds neither a prompt nor a
    delete request (nor the debug line of the handler). *)
Theorem non_http_fetch_error_propagates
        (w : World) (args : Args) (req : SqlInstancesGetRequest) (e : exn) :
  In (CInstancesGet req) (run_trace w args) ->
  instances_Get w req = Raise e ->
  isinstance_HttpError e = false ->
  run_result w args = Raise e
  /\ (forall c, In c (run_trace w args) ->
                is_prompt c = false /\ is_delete c = false
                /\ is_log_debug c = false).
Proof.
  run_cases; intros Hin Hget Hcls; in_inv Hin;
    injection Hin as Hin; subst; try congruence;
    (split; [ congruence
            | intros c Hc; in_inv Hc; subst c; repeat split ]).
Qed.

Lemma unreachable_server_aborts :
  run_result Example.offline Example.delete_db1 = Raise Example.unreachable
  /\ (forall c,
         In c (run_trace Example.offline Example.delete_db1) ->
         is_prompt c = false /\ is_delete c = false
         /\ is_log_debug c = false).
Proof.
  apply (non_http_fetch_error_propagates
           Example.offline Example.delete_db1 Example.db1_get
           Example.unreachable).
  - vm_compute. auto.
  - reflexivity.
  - reflexivity.
Defined.

(** C3, as the code has it.  When the fetch raises an [HttpError], the
    handler logs it at debug level and the command goes on with no
    instance resource: the next call is the prompt with the "all data
    lost" wording, and when the user accepts it the delete request
    follows. *)
Theorem http_fetch_error_is_swallowed
        (w : World) (args : Args) (req : SqlInstancesGetRequest) (e : exn) :
  In (CInstancesGet req) (run_trace w args) ->
  instances_Get w req = Raise e ->
  isinstance_HttpError e = true ->
  exists rest,
    run_trace w args =
      [CValidateInstanceName (args_instance args);
       CParse (args_instance args) "sql.instances";
       CInstancesGet req;
       CLogDebug "Ignoring the error to get instance resource : %s" (ObjExn e);
       CPromptContinue prompt_all_data_lost] ++ rest
    /\ (PromptContinue w prompt_all_data_lost = Return true ->
        exists dreq rest', rest = CInstancesDelete dreq :: rest').
Proof.
  run_cases; intros Hin Hget Hcls; in_inv Hin;
    injection Hin as Hin; subst; try congruence;
    assert (e0 = e) by congruence; subst;
    (eexists; split; [ reflexivity | ]);
    intros Hyes; try congruence; eauto.
Qed.

Lemma forbidden_fetch_still_deletes :
  exists rest,
    run_trace Example.no_read_access Example.delete_db1 =
      [CValidateInstanceName "db1";
       CParse "db1" "sql.instances";
       CInstancesGet Example.db1_get;
       CLogDebug "Ignoring the error to get instance resource : %s"
                 (ObjExn Example.forbidden);
       CPromptContinue prompt_all_data_lost] ++ rest
    /\ (PromptContinue Example.no_read_access prompt_all_data_lost
        = Return true ->
        exists dreq rest', rest = CInstancesDelete dreq :: rest').
Proof.
  apply (http_fetch_error_is_swallowed
           Example.no_read_access Example.delete_db1 Example.db1_get
           Example.forbidden).
  - vm_compute. auto.
  - reflexivity.
  - reflexivity.
Defined.

(** C3 as the spec words it does not hold: a fetch that fails for a
    reason other than an HTTP error is not swallowed.  With the server
    unreachable the command raises straight after the fetch: no debug
    line, no prompt, no delete. *)
Lemma fetch_failure_not_always_swallowed :
  instances_Get Example.offline Example.db1_get = Raise Example.unreachable
  /\ run_result Example.offline Example.delete_db1
     = Raise Example.unreachable
  /\ run_trace Example.offline Example.delete_db1 =
       [CValidateInstanceName "db1";
        CParse "db1" "sql.instances";
        CInstancesGet Example.db1_get].
Proof. repeat split. Qed.

(* ================================================================== *)
(** ** The wording of the prompt *)

Lemma prompts_differ : prompt_retained_backups <> prompt_all_data_lost.
Proof. discriminate. Qed.

(** C4.  The prompt carries the "except the existing backups" wording
    exactly when the fetch returned an instance whose
    [settings.retainBackupsOnDelete] is true; otherwise it carries the
    "all data lost" wording.  The two wordings are different texts. *)
Theorem prompt_wording (w : World) (args : Args) (msg : string) :
  In (CPromptContinue msg) (run_trace w args) ->
  (msg = prompt_retained_backups <->
   exists req r,
     In (CInstancesGet req) (run_trace w args)
     /\ instances_Get w req = Return r
     /\ retainBackupsOnDelete (settings r) = Some true)
  /\ (msg <> prompt_retained_backups -> msg = prompt_all_data_lost)
  /\ prompt_retained_backups <> prompt_all_data_lost.
Proof.
  intros Hin.
  assert (D := prompts_differ).
  revert Hin.
  run_cases; intros Hin; in_inv Hin; injection Hin as Hin; subst;
    (split; [ split | split; [ | exact D ] ]);
    try match goal with
        | |- context [truthy (retainBackupsOnDelete (settings ?a))] =>
            destruct (retainBackupsOnDelete (settings a)) as [[|]|] eqn:?;
            cbn [truthy]
        end;
    try (intros (req' & r' & Hg & Hr & Ht); in_inv Hg;
         injection Hg as Hg; subst; congruence);
    try (intros E; exfalso; apply D; symmetry; exact E);
    try (intros _; do 2 eexists; (split; [ cbn; eauto 10 | ]);
         split; eassumption);
    try reflexivity; try congruence.
Qed.

Lemma kept_backups_are_mentioned :
  In (CPromptContinue prompt_retained_backups)
     (run_trace Example.retaining Example.delete_db1)
  /\ exists req r,
       In (CInstancesGet req) (run_trace Example.retaining Example.delete_db1)
       /\ instances_Get Example.retaining req = Return r
       /\ retainBackupsOnDelete (settings r) = Some true.
Proof.
  assert (H : In (CPromptContinue prompt_retained_backups)
                 (run_trace Example.retaining Example.delete_db1))
    by (vm_compute; auto).
  split; [ exact H | ].
  apply (proj1 (prompt_wording Example.retaining Example.delete_db1
                               prompt_retained_backups H)).
  reflexivity.
Defined.

(* ================================================================== *)
(** ** The delete request *)

(** C5.  [finalBackupTtlDays] of the delete request is unset when the
    retention flag is absent or not positive, and is the flag's value
    when that is positive. *)
Theorem retention_days_normalised
        (w : World) (args : Args) (req : SqlInstancesDeleteRequest) :
  In (CInstancesDelete req) (run_trace w args) ->
  (final_backup_retention_days args = None -> finalBackupTtlDays req = None)
  /\ (forall days, final_backup_retention_days args = Some days ->
                   days <= 0 -> finalBackupTtlDays req = None)
  /\ (forall days, final_backup_retention_days args = Some days ->
                   0 < days -> finalBackupTtlDays req = Some days).
Proof.
  run_cases; intros Hin; in_inv Hin; injection Hin as Hin; subst req;
    cbn [finalBackupTtlDays];
    (split; [ intros ->; reflexivity | split; intros days -> Hd ]);
    destruct (Z.gtb_spec days 0); try reflexivity; lia.
Qed.

Lemma seven_days_pass :
  In (CInstancesDelete (Example.keep_request (Some 7)))
     (run_trace Example.smooth (Example.delete_db1_keep 7))
  /\ finalBackupTtlDays (Example.keep_request (Some 7)) = Some 7.
Proof.
  assert (H : In (CInstancesDelete (Example.keep_request (Some 7)))
                 (run_trace Example.smooth (Example.delete_db1_keep 7)))
    by (vm_compute; auto 10).
  split; [ exact H | ].
  apply (proj2 (proj2 (retention_days_normalised
                         Example.smooth (Example.delete_db1_keep 7)
                         (Example.keep_request (Some 7)) H)) 7).
  - reflexivity.
  - lia.
Defined.

(* ================================================================== *)
(** ** After the delete call *)

(** C7.  With [--async] the waiter is never called; and once the delete
    call has returned an operation and the reference to it is built, the
    one operations.Get request of the run is the one for that reference,
    and what it returns is what [Run] returns. *)
Theorem async_returns_operation_snapshot (w : World) (args : Args) :
  async_ args = true ->
  filter is_wait (run_trace w args) = []
  /\ (forall dreq result ref,
         In (CInstancesDelete dreq) (run_trace w args) ->
         instances_Delete w dreq = Return result ->
         resource_parser_Create w "sql.operations" (name result)
                                (project dreq) = Return ref ->
         filter is_operations_get (run_trace w args) =
           [COperationsGet {| opget_project := op_project ref;
                              opget_operation := op_operation ref |}]
         /\ (forall op,
                operations_Get w {| opget_project := op_project ref;
                                    opget_operation := op_operation ref |}
                = Return op ->
                run_result w args = Return (Some op))).
Proof.
  intros Ha. split.
  - run_cases; try congruence; reflexivity.
  - intros dreq result ref.
    run_cases; try congruence; intros Hin Hd Hc; in_inv Hin;
      injection Hin as Hin; subst dreq; cbn [project] in Hc;
      same_answers;
      (split; [ reflexivity | intros op Hop; congruence ]).
Qed.

Lemma async_run_returns_snapshot :
  async_ Example.delete_db1_async = true
  /\ filter is_wait (run_trace Example.smooth Example.delete_db1_async) = []
  /\ run_result Example.smooth Example.delete_db1_async
     = Return (Some Example.snapshot).
Proof.
  split; [ reflexivity | ].
  destruct (async_returns_operation_snapshot
              Example.smooth Example.delete_db1_async eq_refl) as [Hw Hop].
  split; [ exact Hw | ].
  apply (Hop Example.db1_delete Example.pending Example.op42).
  - vm_compute. auto 10.
  - reflexivity.
  - reflexivity.
  - reflexivity.
Defined.

(** C8.  Without [--async], once the delete call has returned an
    operation and the reference to it is built, the next call is the
    waiter on that reference with the "Deleting Cloud SQL instance"
    message, and no operations.Get request is made.  When the waiter
    returns, the deletion is logged for the instance reference the name
    was resolved to, nothing else follows and [Run] returns [None]; when
    the waiter raises, nothing is logged as deleted and [Run] raises the
    same. *)
Theorem sync_waits_then_logs
        (w : World) (args : Args) (dreq : SqlInstancesDeleteRequest)
        (result : Operation) (ref : OperationRef) :
  async_ args = false ->
  In (CInstancesDelete dreq) (run_trace w args) ->
  instances_Delete w dreq = Return result ->
  resource_parser_Create w "sql.operations" (name result) (project dreq)
  = Return ref ->
  exists pre tail,
    run_trace w args =
      pre ++ [CInstancesDelete dreq;
              CCreate "sql.operations" (name result) (project dreq);
              CWaitForOperation ref "Deleting Cloud SQL instance"] ++ tail
    /\ filter is_operations_get (run_trace w args) = []
    /\ (WaitForOperation w ref "Deleting Cloud SQL instance" = Return tt ->
        exists instance_ref,
          resource_parser_Parse w (args_instance args) "sql.instances"
          = Return instance_ref
          /\ tail = [CLogDeletedResource instance_ref]
          /\ run_result w args = Return None)
    /\ (forall e,
           WaitForOperation w ref "Deleting Cloud SQL instance" = Raise e ->
           run_result w args = Raise e
           /\ forall r, ~ In (CLogDeletedResource r) (run_trace w args)).
Proof.
  intros Ha.
  run_cases; try congruence; intros Hin Hd Hc; in_inv Hin;
    injection Hin as Hin; subst dreq; cbn [project] in Hc |- *;
    same_answers;
    match goal with
    | |- exists pre tail, ?a :: ?b :: ?c :: ?d :: ?rest = _ /\ _ =>
        lazymatch d with
        | CPromptContinue _ =>
            exists [a; b; c; d]
        | _ =>
            lazymatch rest with
            | ?e :: _ => exists [a; b; c; d; e]
            end
        end
    end;
    eexists; (split; [ cbn [app]; reflexivity | ]);
    (split; [ reflexivity | ]);
    (split; [ intros Hw; try congruence; eauto
            | intros e' Hw; try congruence ]);
    (split; [ congruence | intros r F; in_inv F ]).
Qed.

Lemma sync_run_waits_and_logs :
  exists pre tail,
    run_trace Example.smooth Example.delete_db1 =
      pre ++ [CInstancesDelete Example.db1_delete;
              CCreate "sql.operations" "op-42" "my-project";
              CWaitForOperation Example.op42 "Deleting Cloud SQL instance"]
          ++ tail
    /\ filter is_operations_get (run_trace Example.smooth Example.delete_db1)
       = []
    /\ (WaitForOperation Example.smooth Example.op42
                         "Deleting Cloud SQL instance" = Return tt ->
        exists instance_ref,
          resource_parser_Parse Example.smooth "db1" "sql.instances"
          = Return instance_ref
          /\ tail = [CLogDeletedResource instance_ref]
          /\ run_result Example.smooth Example.delete_db1 = Return None)
    /\ (forall e,
           WaitForOperation Example.smooth Example.op42
                            "Deleting Cloud SQL instance" = Raise e ->
           run_result Example.smooth Example.delete_db1 = Raise e
           /\ forall r,
               ~ In (CLogDeletedResource r)
                    (run_trace Example.smooth Example.delete_db1)).
Proof.
  apply (sync_waits_then_logs Example.smooth Example.delete_db1
           Example.db1_delete Example.pending Example.op42).
  - reflexivity.
  - vm_compute. auto 10.
  - reflexivity.
  - reflexivity.
Defined.

(** C9.  When a call from the delete request on raises an [HttpError],
    the handler logs the operation reference as it stands ([None] until
    the reference is built) at debug level, and [Run] raises that same
    error.  The failing call is the last one before the debug line and
    was issued once; no call of the run is issued twice. *)
Theorem http_error_after_delete_is_logged_and_reraised
        (w : World) (args : Args) (c : Call) (e : exn) :
  In c (run_trace w args) ->
  from_delete_on c = true ->
  raised_by w c = Some e ->
  isinstance_HttpError e = true ->
  run_result w args = Raise e
  /\ (exists pre,
         run_trace w args =
           pre ++ [c; CLogDebug "operation : %s"
                                (obj_of_operation_ref
                                   (run_operation_ref w args))]
         /\ ~ In c pre)
  /\ (is_delete c = true -> run_operation_ref w args = None)
  /\ (forall req, c = COperationsGet req ->
        exists ref,
          run_operation_ref w args = Some ref
          /\ req = {| opget_project := op_project ref;
                      opget_operation := op_operation ref |})
  /\ (forall ref msg, c = CWaitForOperation ref msg ->
        run_operation_ref w args = Some ref)
  /\ NoDup (run_trace w args)
  /\ List.length (filter is_delete (run_trace w args)) = 1%nat.
Proof.
  run_cases; intros Hin Hfrom Hr He; in_inv Hin; subst c;
    try discriminate Hfrom; cbn [raised_by] in Hr;
    repeat match goal with
           | H : ?r = _, Hr : context [?r] |- _ => rewrite H in Hr
           end;
    try discriminate Hr; injection Hr as Hr; subst; try congruence;
    (split; [ reflexivity | ]);
    (split; [ match goal with
              | |- exists pre, ?l = _ /\ _ =>
                  exists (removelast (removelast l)); cbn [removelast];
                  split; [ reflexivity | intros F; in_inv F ]
              end | ]);
    (split; [ intros F; first [ reflexivity | discriminate F ] | ]);
    (split; [ intros req' F; first [ discriminate F | injection F as F; subst; eauto ] | ]);
    (split; [ intros ref' msg' F; first [ discriminate F | injection F as F; subst; reflexivity ] | ]);
    (split; [ repeat (constructor; [ intros F; in_inv F | ]); constructor
            | reflexivity ]).
Qed.

Lemma refused_delete_is_reraised :
  run_result Example.delete_refused Example.delete_db1
  = Raise Example.forbidden
  /\ run_trace Example.delete_refused Example.delete_db1 =
       [CValidateInstanceName "db1";
        CParse "db1" "sql.instances";
        CInstancesGet Example.db1_get;
        CPromptContinue prompt_all_data_lost]
       ++ [CInstancesDelete Example.db1_delete;
           CLogDebug "operation : %s" ObjNone].
Proof.
  destruct (http_error_after_delete_is_logged_and_reraised
              Example.delete_refused Example.delete_db1
              (CInstancesDelete Example.db1_delete) Example.forbidden)
    as (Hres & _).
  - vm_compute. auto 10.
  - reflexivity.
  - reflexivity.
  - reflexivity.
  - split; [ exact Hres | reflexivity ].
Defined.

(* ================================================================== *)
(** ** The expiry timestamp *)

Local Transparent Datetime.strftime.

Section Strftime.

Import Datetime.

Lemma digit_value_digit_char (d : Z) :
  0 <= d < 10 -> digit_value (digit_char d) = Some d.
Proof.
  intros H.
  assert (C : d = 0 \/ d = 1 \/ d = 2 \/ d = 3 \/ d = 4 \/ d = 5 \/ d = 6
              \/ d = 7 \/ d = 8 \/ d = 9) by lia.
  repeat (destruct C as [->|C]; [ reflexivity | ]). subst d. reflexivity.
Qed.

Lemma is_digit_digit_char (n : Z) : is_digit (digit_char (n mod 10)) = true.
Proof.
  unfold is_digit. rewrite digit_value_digit_char; [ reflexivity | ].
  apply Z.mod_pos_bound. lia.
Qed.

Lemma zfill_onto_app (w : nat) (n : Z) (acc rest : string) :
  (zfill_onto w n acc ++ rest)%string = zfill_onto w n (acc ++ rest)%string.
Proof.
  revert n acc. induction w as [|w IH]; intros n acc; cbn; [ reflexivity | ].
  rewrite IH. reflexivity.
Qed.

(** Reading [w] digits off a number printed on [w] digits gives the
    number back, up to the width. *)
Lemma read_zfill_onto (w k : nat) (n acc : Z) (s : string) :
  read_digits (w + k) acc (zfill_onto w n s)
  = read_digits k (acc * 10 ^ Z.of_nat w + n mod 10 ^ Z.of_nat w) s.
Proof.
  revert k n acc s. induction w as [|w IH]; intros k n acc s.
  - cbn [Nat.add zfill_onto Z.of_nat]. rewrite Z.pow_0_r, Z.mod_1_r.
    f_equal. lia.
  - cbn [zfill_onto]. rewrite Nat.add_succ_comm, IH.
    cbn [read_digits]. rewrite digit_value_digit_char
      by (apply Z.mod_pos_bound; lia).
    f_equal.
    rewrite Nat2Z.inj_succ, Z.pow_succ_r by lia.
    rewrite (Z.rem_mul_r n 10 (10 ^ Z.of_nat w)) by lia.
    ring.
Qed.

Lemma read_zfill (w : nat) (n : Z) (s : string) :
  0 <= n < 10 ^ Z.of_nat w ->
  read_digits w 0 (zfill_onto w n s) = Some (n, s).
Proof.
  intros H. rewrite <- (Nat.add_0_r w) at 1. rewrite read_zfill_onto.
  cbn [read_digits]. rewrite Z.mod_small by exact H. reflexivity.
Qed.

(** The command's format, directive by directive. *)
Lemma strftime_expiry_time_format (t : datetime) :
  strftime t expiry_time_format =
    zfill_onto 4 (year t) (String "-"
    (zfill_onto 2 (month t) (String "-"
    (zfill_onto 2 (day t) (String "T"
    (zfill_onto 2 (hour t) (String ":"
    (zfill_onto 2 (minute t) (String ":"
    (zfill_onto 2 (second t) (String "."
    (zfill_onto 6 (microsecond t) "Z")))))))))))).
Proof.
  cbn [strftime expiry_time_format directive]. unfold zfill.
  rewrite !zfill_onto_app. reflexivity.
Qed.

Lemma valid_ranges (t : datetime) :
  valid t = true ->
  0 <= year t < 10 ^ 4 /\ 0 <= month t < 10 ^ 2 /\ 0 <= day t < 10 ^ 2
  /\ 0 <= hour t < 10 ^ 2 /\ 0 <= minute t < 10 ^ 2
  /\ 0 <= second t < 10 ^ 2 /\ 0 <= microsecond t < 10 ^ 6.
Proof.
  unfold valid, in_range. rewrite !andb_true_iff, !Z.leb_le.
  intros H.
  assert (D : days_in_month (year t) (month t) <= 31).
  { unfold days_in_month.
    repeat match goal with |- context [if ?b then _ else _] => destruct b end;
      lia. }
  lia.
Qed.

(** A valid datetime prints in the shape [9999-99-99T99:99:99.999999Z]. *)
Lemma strftime_matches_pattern (t : datetime) :
  matches expiry_time_pattern (strftime t expiry_time_format) = true.
Proof.
  rewrite strftime_expiry_time_format.
  cbn [zfill_onto expiry_time_pattern matches Ascii.eqb Bool.eqb andb].
  rewrite !is_digit_digit_char. reflexivity.
Qed.

(** Reading the printed timestamp gives the fields of the datetime, now
    labelled as UTC. *)
Lemma read_strftime (t : datetime) :
  valid t = true ->
  read_utc_timestamp (strftime t expiry_time_format)
  = Some {| year := year t; month := month t; day := day t;
            hour := hour t; minute := minute t; second := second t;
            microsecond := microsecond t; utcoffset := Some 0 |}.
Proof.
  intros V. destruct (valid_ranges t V) as (?&?&?&?&?&?&?).
  rewrite strftime_expiry_time_format. unfold read_utc_timestamp.
  repeat (rewrite read_zfill by assumption; cbn [obind expect Ascii.eqb Bool.eqb]).
  reflexivity.
Qed.

End Strftime.

(** X1.  The expiry field of the delete request is the flag's timestamp
    printed with the command's format: for a year of four digits it has
    the shape [9999-99-99T99:99:99.999999Z] and reads back as the
    timestamp's own calendar fields. *)
Theorem expiry_time_shape
        (w : World) (args : Args) (req : SqlInstancesDeleteRequest)
        (t : Datetime.datetime) :
  In (CInstancesDelete req) (run_trace w args) ->
  final_backup_expiry_time args = Some t ->
  Datetime.valid t = true ->
  1000 <= Datetime.year t ->
  exists s,
    finalBackupExpiryTime req = Some s
    /\ s = Datetime.strftime t "%Y-%m-%dT%H:%M:%S.%fZ"
    /\ Datetime.matches "9999-99-99T99:99:99.999999Z" s = true
    /\ Datetime.read_utc_timestamp s
       = Some {| Datetime.year := Datetime.year t;
                 Datetime.month := Datetime.month t;
                 Datetime.day := Datetime.day t;
                 Datetime.hour := Datetime.hour t;
                 Datetime.minute := Datetime.minute t;
                 Datetime.second := Datetime.second t;
                 Datetime.microsecond := Datetime.microsecond t;
                 Datetime.utcoffset := Some 0 |}.
Proof.
  intros Hin Ht V _.
  exists (Datetime.strftime t expiry_time_format).
  split; [ | split; [ reflexivity
                    | split; [ apply strftime_matches_pattern
                             | apply read_strftime; exact V ] ] ].
  revert Hin. run_cases; intros Hin; in_inv Hin; injection Hin as Hin;
    subst req; cbn [finalBackupExpiryTime]; rewrite Ht; reflexivity.
Qed.

Lemma noon_utc_expiry_shape :
  exists s,
    finalBackupExpiryTime
      {| instance := "db1"; project := "my-project";
         enableFinalBackup := true; finalBackupTtlDays := None;
         finalBackupDescription := None;
         finalBackupExpiryTime := Some "2025-01-01T12:00:00.000000Z" |}
    = Some s
    /\ s = Datetime.strftime Example.noon_utc "%Y-%m-%dT%H:%M:%S.%fZ"
    /\ Datetime.matches "9999-99-99T99:99:99.999999Z" s = true
    /\ Datetime.read_utc_timestamp s = Some Example.noon_utc.
Proof.
  apply (expiry_time_shape Example.smooth
           (Example.delete_db1_until Example.noon_utc)
           {| instance := "db1"; project := "my-project";
              enableFinalBackup := true; finalBackupTtlDays := None;
              finalBackupDescription := None;
              finalBackupExpiryTime := Some "2025-01-01T12:00:00.000000Z" |}
           Example.noon_utc).
  - vm_compute. auto 10.
  - reflexivity.
  - reflexivity.
  - cbn. lia.
Defined.

(** X2.  Without the expiry flag the delete request carries no expiry
    time. *)
Theorem expiry_time_absent_without_flag
        (w : World) (args : Args) (req : SqlInstancesDeleteRequest) :
  In (CInstancesDelete req) (run_trace w args) ->
  final_backup_expiry_time args = None ->
  finalBackupExpiryTime req = None.
Proof.
  run_cases; intros Hin Ht; in_inv Hin; injection Hin as Hin;
    subst req; cbn [finalBackupExpiryTime]; rewrite Ht; reflexivity.
Qed.

Lemma plain_delete_has_no_expiry :
  In (CInstancesDelete Example.db1_delete)
     (run_trace Example.smooth Example.delete_db1)
  /\ finalBackupExpiryTime Example.db1_delete = None.
Proof.
  assert (H : In (CInstancesDelete Example.db1_delete)
                 (run_trace Example.smooth Example.delete_db1))
    by (vm_compute; auto 10).
  split; [ exact H | ].
  apply (expiry_time_absent_without_flag
           Example.smooth Example.delete_db1 Example.db1_delete H).
  reflexivity.
Defined.

(** X3.  For an aware datetime with a year of four digits: the printed
    timestamp, read as the UTC time its [Z] announces, names
    the datetime's wall clock reading: it is later than the instant the
    datetime denotes by the datetime's offset from UTC, and is that
    instant exactly when the offset is zero. *)
Theorem expiry_time_off_by_utcoffset (t : Datetime.datetime) (off : Z) :
  Datetime.valid t = true ->
  1000 <= Datetime.year t ->
  Datetime.utcoffset t = Some off ->
  Datetime.instant_of_utc_timestamp
    (Datetime.strftime t "%Y-%m-%dT%H:%M:%S.%fZ")
  = Some (Datetime.wall_clock_us t)
  /\ Datetime.instant_us t = Some (Datetime.wall_clock_us t - off * 1000000)
  /\ (Datetime.instant_of_utc_timestamp
        (Datetime.strftime t "%Y-%m-%dT%H:%M:%S.%fZ")
      = Datetime.instant_us t <-> off = 0).
Proof.
  intros V _ Hoff.
  assert (R : Datetime.instant_of_utc_timestamp
                (Datetime.strftime t expiry_time_format)
              = Some (Datetime.wall_clock_us t)).
  { unfold Datetime.instant_of_utc_timestamp.
    rewrite (read_strftime t V). cbn [Datetime.obind].
    unfold Datetime.instant_us. cbn [Datetime.utcoffset].
    f_equal. unfold Datetime.wall_clock_us, Datetime.toordinal.
    cbn [Datetime.year Datetime.month Datetime.day Datetime.hour
         Datetime.minute Datetime.second Datetime.microsecond].
    lia. }
  change "%Y-%m-%dT%H:%M:%S.%fZ" with expiry_time_format.
  rewrite R. unfold Datetime.instant_us. rewrite Hoff.
  split; [ reflexivity | split; [ reflexivity | ] ].
  split.
  - intros E. injection E as E. lia.
  - intros ->. f_equal. lia.
Qed.

Lemma noon_plus_two_is_two_hours_off :
  Datetime.instant_of_utc_timestamp
    (Datetime.strftime Example.noon_plus_two "%Y-%m-%dT%H:%M:%S.%fZ")
  = Some 1735732800000000
  /\ Datetime.instant_us Example.noon_plus_two = Some 1735725600000000.
Proof.
  destruct (expiry_time_off_by_utcoffset Example.noon_plus_two 7200)
    as (H1 & H2 & _).
  - reflexivity.
  - cbn. lia.
  - reflexivity.
  - split; [ exact H1 | exact H2 ].
Defined.

(** C6 at a timestamp two hours ahead of UTC.  The flag says noon at
    +02:00, which is 10:00 UTC; the request says [12:00:00.000000Z],
    which is noon UTC: 7200 seconds later. *)
Theorem expiry_time_mislabels_offset_timestamp :
  In (CInstancesDelete
        {| instance := "db1"; project := "my-project";
           enableFinalBackup := true; finalBackupTtlDays := None;
           finalBackupDescription := None;
           finalBackupExpiryTime := Some "2025-01-01T12:00:00.000000Z" |})
     (run_trace Example.smooth
                (Example.delete_db1_until Example.noon_plus_two))
  /\ Datetime.valid Example.noon_plus_two = true
  /\ Datetime.instant_us Example.noon_plus_two = Some 1735725600000000
  /\ Datetime.instant_of_utc_timestamp "2025-01-01T12:00:00.000000Z"
     = Some (1735725600000000 + 7200 * 1000000)
  /\ Datetime.instant_of_utc_timestamp "2025-01-01T12:00:00.000000Z"
     <> Datetime.instant_us Example.noon_plus_two.
Proof.
  split; [ vm_compute; auto 10 | repeat split ].
  vm_compute. discriminate.
Qed.

(* ================================================================== *)
(** ** Whole runs *)

(** X4.  In every run the name check is the first call: whatever request goes
    to the remote service comes after it. *)
Theorem validation_precedes_remote_requests
        (w : World) (args : Args) (pre post : list Call) (c : Call) :
  run_trace w args = pre ++ c :: post ->
  is_remote_request c = true ->
  In (CValidateInstanceName (args_instance args)) pre.
Proof.
  run_cases; intros H Hc; split_trace H;
    first [ discriminate Hc | cbn [In]; auto ].
Qed.

Lemma fetch_comes_after_validation :
  In (CValidateInstanceName "db1")
     [CValidateInstanceName "db1"; CParse "db1" "sql.instances"].
Proof.
  apply (validation_precedes_remote_requests
           Example.smooth Example.delete_db1
           [CValidateInstanceName "db1"; CParse "db1" "sql.instances"]
           [CPromptContinue prompt_all_data_lost;
            CInstancesDelete Example.db1_delete;
            CCreate "sql.operations" "op-42" "my-project";
            CWaitForOperation Example.op42 "Deleting Cloud SQL instance";
            CLogDeletedResource Example.db1]
           (CInstancesGet Example.db1_get)).
  - reflexivity.
  - reflexivity.
Defined.

(** [gcloud sql instances delete db1], confirmed, all calls succeeding:
    one delete request with no final-backup field set but
    [enableFinalBackup = false], then the wait, then the log line for
    [db1]; [Run] returns [None]. *)
Theorem delete_db1_confirmed :
  run_trace Example.smooth Example.delete_db1 =
    [CValidateInstanceName "db1";
     CParse "db1" "sql.instances";
     CInstancesGet Example.db1_get;
     CPromptContinue prompt_all_data_lost;
     CInstancesDelete Example.db1_delete;
     CCreate "sql.operations" "op-42" "my-project";
     CWaitForOperation Example.op42 "Deleting Cloud SQL instance";
     CLogDeletedResource Example.db1]
  /\ run_result Example.smooth Example.delete_db1 = Return None.
Proof. split; reflexivity. Qed.

(** The same with [--async]: the same delete request, then one
    operations.Get whose answer is the result; no wait, no log line. *)
Theorem delete_db1_async_confirmed :
  run_trace Example.smooth Example.delete_db1_async =
    [CValidateInstanceName "db1";
     CParse "db1" "sql.instances";
     CInstancesGet Example.db1_get;
     CPromptContinue prompt_all_data_lost;
     CInstancesDelete Example.db1_delete;
     CCreate "sql.operations" "op-42" "my-project";
     COperationsGet Example.op42_get]
  /\ run_result Example.smooth Example.delete_db1_async
     = Return (Some Example.snapshot).
Proof. split; reflexivity. Qed.

(* ================================================================== *)
(** ** Failures on the way to the delete *)

Local Opaque Datetime.strftime.

(** X5.  When the instance name does not resolve (no project is set, for
    one), [Run] raises the parser's error after the name check and the
    parse alone: nothing is fetched, nobody is asked, nothing is
    deleted. *)
Theorem parse_failure_is_fatal (w : World) (args : Args) (e : exn) :
  In (CParse (args_instance args) "sql.instances") (run_trace w args) ->
  resource_parser_Parse w (args_instance args) "sql.instances" = Raise e ->
  run_result w args = Raise e
  /\ run_trace w args = [CValidateInstanceName (args_instance args);
                         CParse (args_instance args) "sql.instances"]
  /\ run_operation_ref w args = None.
Proof.
  run_cases; intros Hin Hp; try discriminate Hp; in_inv Hin;
    injection Hp as Hp; subst; repeat split.
Qed.

Lemma no_project_no_request :
  run_result Example.no_project Example.delete_db1
  = Raise Example.missing_project
  /\ run_trace Example.no_project Example.delete_db1
     = [CValidateInstanceName "db1"; CParse "db1" "sql.instances"]
  /\ run_operation_ref Example.no_project Example.delete_db1 = None.
Proof.
  apply (parse_failure_is_fatal Example.no_project Example.delete_db1
                                Example.missing_project).
  - vm_compute. auto.
  - reflexivity.
Defined.

(** X6.  The prompt stands outside both [try] blocks: whatever it raises,
    an [HttpError] included, [Run] raises, with the prompt as the last
    call of the run; nothing is deleted and nothing is logged for it. *)
Theorem prompt_error_propagates
        (w : World) (args : Args) (msg : string) (e : exn) :
  In (CPromptContinue msg) (run_trace w args) ->
  PromptContinue w msg = Raise e ->
  run_result w args = Raise e
  /\ (exists pre, run_trace w args = pre ++ [CPromptContinue msg])
  /\ (forall c, In c (run_trace w args) ->
                from_delete_on c = false /\ is_deleted_log c = false)
  /\ (forall arg, ~ In (CLogDebug "operation : %s" arg) (run_trace w args)).
Proof.
  run_cases; intros Hin Hp; in_inv Hin; injection Hin as Hin; subst;
    same_answers;
    (split; [ reflexivity | ]);
    (split; [ match goal with
              | |- exists pre, ?l = _ =>
                  exists (removelast l); reflexivity
              end | ]);
    (split; [ intros c Hc; in_inv Hc; subst c; split; reflexivity
            | intros arg F; in_inv F ]).
Qed.

Lemma unanswered_prompt_deletes_nothing :
  run_result Example.nobody_there Example.delete_db1
  = Raise Example.unattended
  /\ (exists pre,
         run_trace Example.nobody_there Example.delete_db1
         = pre ++ [CPromptContinue prompt_all_data_lost])
  /\ (forall c, In c (run_trace Example.nobody_there Example.delete_db1) ->
                from_delete_on c = false /\ is_deleted_log c = false)
  /\ (forall arg,
         ~ In (CLogDebug "operation : %s" arg)
              (run_trace Example.nobody_there Example.delete_db1)).
Proof.
  apply (prompt_error_propagates Example.nobody_there Example.delete_db1
                                 prompt_all_data_lost Example.unattended).
  - vm_compute. auto.
  - reflexivity.
Defined.

(** X7.  An error from the delete request on that is not an [HttpError]
    (the waiter reporting a failed operation, for one) passes through the
    handler at line 158: [Run] raises it, the failing call is the last
    entry of the trace, so no "operation" debug line is written, and the
    deletion is not logged. *)
Theorem non_http_error_after_delete_is_not_logged
        (w : World) (args : Args) (c : Call) (e : exn) :
  In c (run_trace w args) ->
  from_delete_on c = true ->
  raised_by w c = Some e ->
  isinstance_HttpError e = false ->
  run_result w args = Raise e
  /\ (exists pre, run_trace w args = pre ++ [c])
  /\ (forall arg, ~ In (CLogDebug "operation : %s" arg) (run_trace w args))
  /\ (forall r, ~ In (CLogDeletedResource r) (run_trace w args)).
Proof.
  run_cases; intros Hin Hfrom Hr He; in_inv Hin; subst c;
    try discriminate Hfrom; cbn [raised_by] in Hr;
    repeat match goal with
           | H : ?r = _, Hr : context [?r] |- _ => rewrite H in Hr
           end;
    try discriminate Hr; injection Hr as Hr; subst; try congruence;
    (split; [ reflexivity | ]);
    (split; [ match goal with
              | |- exists pre, ?l = _ =>
                  exists (removelast l); reflexivity
              end | ]);
    (split; [ intros arg F; in_inv F | intros r F; in_inv F ]).
Qed.

Lemma failed_operation_is_not_logged :
  run_result Example.ends_badly Example.delete_db1
  = Raise Example.operation_failed
  /\ (exists pre,
         run_trace Example.ends_badly Example.delete_db1
         = pre ++ [CWaitForOperation Example.op42
                                     "Deleting Cloud SQL instance"])
  /\ (forall arg,
         ~ In (CLogDebug "operation : %s" arg)
              (run_trace Example.ends_badly Example.delete_db1))
  /\ (forall r,
         ~ In (CLogDeletedResource r)
              (run_trace Example.ends_badly Example.delete_db1)).
Proof.
  apply (non_http_error_after_delete_is_not_logged
           Example.ends_badly Example.delete_db1
           (CWaitForOperation Example.op42 "Deleting Cloud SQL instance")
           Example.operation_failed).
  - vm_compute. auto 10.
  - reflexivity.
  - reflexivity.
  - reflexivity.
Defined.

(* ================================================================== *)
(** ** Where errors come from and where they go *)




(** X9.  The fetch is the one call whose failure the command lives
    with: when any call of a run raises, either [Run] raises that error,
    or the call is the fetch and the error an [HttpError]. *)
Theorem only_fetch_failure_is_tolerated
        (w : World) (args : Args) (c : Call) (e : exn) :
  In c (run_trace w args) ->
  raised_by w c = Some e ->
  run_result w args = Raise e
  \/ (exists req, c = CInstancesGet req /\ isinstance_HttpError e = true).
Proof.
  run_cases; intros Hin Hr; in_inv Hin; subst c; cbn [raised_by] in Hr;
    repeat match goal with
           | H : ?r = _, Hr : context [?r] |- _ => rewrite H in Hr
           end;
    try discriminate Hr; injection Hr as Hr; subst;
    first [ left; reflexivity | right; eauto ].
Qed.

Lemma tolerated_then_refused :
  run_result Example.refused_twice Example.delete_db1
  = Raise Example.forbidden
  \/ (exists req,
         CInstancesDelete Example.db1_delete = CInstancesGet req
         /\ isinstance_HttpError Example.forbidden = true).
Proof.
  apply (only_fetch_failure_is_tolerated
           Example.refused_twice Example.delete_db1
           (CInstancesDelete Example.db1_delete) Example.forbidden).
  - vm_compute. auto 10.
  - reflexivity.
Defined.

(* ================================================================== *)
(** ** What the delete request carries *)

(** X10.  The request deletes the instance the name resolved to, in its
    project: the very instance the fetch before the prompt asked about.
    The final-backup switch and description are the flags' values as
    given. *)
Theorem delete_targets_fetched_instance
        (w : World) (args : Args) (dreq : SqlInstancesDeleteRequest) :
  In (CInstancesDelete dreq) (run_trace w args) ->
  (exists instance_ref,
      resource_parser_Parse w (args_instance args) "sql.instances"
      = Return instance_ref
      /\ instance dreq = ref_instance instance_ref
      /\ project dreq = ref_project instance_ref)
  /\ In (CInstancesGet {| get_project := project dreq;
                          get_instance := instance dreq |})
        (run_trace w args)
  /\ enableFinalBackup dreq = enable_final_backup args
  /\ finalBackupDescription dreq = final_backup_description args.
Proof.
  run_cases; intros Hin; in_inv Hin; injection Hin as Hin; subst dreq;
    cbn [instance project enableFinalBackup finalBackupDescription];
    (split; [ eexists; repeat split | ]);
    (split; [ cbn [In]; auto | split; reflexivity ]).
Qed.

Lemma db1_is_fetched_then_deleted :
  (exists instance_ref,
      resource_parser_Parse Example.smooth "db1" "sql.instances"
      = Return instance_ref
      /\ "db1" = ref_instance instance_ref
      /\ "my-project" = ref_project instance_ref)
  /\ In (CInstancesGet Example.db1_get)
        (run_trace Example.smooth Example.delete_db1)
  /\ false = enable_final_backup Example.delete_db1
  /\ None = final_backup_description Example.delete_db1.
Proof.
  apply (delete_targets_fetched_instance
           Example.smooth Example.delete_db1 Example.db1_delete).
  vm_compute. auto 10.
Defined.

(** Whatever the parser held before, the group [Args] makes does not let
    both expiry flags through. *)
Lemma Delete_Args_excludes (parser : Target) (regs : list Registration)
      (args : Args) :
  groups_respected (snd (Delete_Args parser regs)) args = true ->
  final_backup_expiry_time args = None
  \/ final_backup_retention_days args = None.
Proof.
  unfold Delete_Args, register, new_group, Py.bind, Py.modify.
  cbn [snd fst].
  set (g := List.length (filter is_group _)).
  set (before := (_ ++ [AddFinalbackupDescription parser])%list).
  unfold groups_respected. rewrite !forallb_app. cbn [forallb].
  rewrite !andb_true_iff. intros (((_ & G & _) & _) & _).
  revert G. unfold group_respected. cbn [negb orb].
  rewrite andb_true_r, !filter_app, !length_app.
  cbn [filter in_group target_of supplied]. rewrite Nat.eqb_refl.
  cbn [andb].
  destruct (final_backup_expiry_time args); [ | auto ].
  destruct (final_backup_retention_days args); [ | auto ].
  cbn [is_some List.length]. rewrite Nat.leb_le. lia.
Qed.

(** X11.  [Args] puts the expiry-time and the retention-days flag in one
    mutually exclusive group.  For a command line that respects the
    groups of the parser [Args] has filled, whatever the parser held
    before, the delete request sets at most one of [finalBackupTtlDays]
    and [finalBackupExpiryTime]. *)
Theorem exclusive_flags_give_exclusive_fields
        (parser : Target) (regs : list Registration)
        (w : World) (args : Args) (req : SqlInstancesDeleteRequest) :
  groups_respected (snd (Delete_Args parser regs)) args = true ->
  In (CInstancesDelete req) (run_trace w args) ->
  finalBackupTtlDays req = None \/ finalBackupExpiryTime req = None.
Proof.
  intros G. apply Delete_Args_excludes in G. revert G.
  run_cases; intros G Hin; in_inv Hin; injection Hin as Hin; subst req;
    cbn [finalBackupTtlDays finalBackupExpiryTime];
    destruct G as [-> | ->]; auto.
Qed.

Lemma keep_request_has_no_expiry_time :
  groups_respected declared_arguments (Example.delete_db1_keep 7) = true
  /\ (finalBackupTtlDays (Example.keep_request (Some 7)) = None
      \/ finalBackupExpiryTime (Example.keep_request (Some 7)) = None).
Proof.
  split; [ reflexivity | ].
  apply (exclusive_flags_give_exclusive_fields
           Parser [] Example.smooth (Example.delete_db1_keep 7)
           (Example.keep_request (Some 7))).
  - reflexivity.
  - vm_compute. auto 10.
Defined.

(* ================================================================== *)
(** ** What a run never does *)


(** X13.  The deletion is logged only when it happened: a deleted-resource
    line means the run was a waiting one, the delete request was
    accepted, the waiter returned, the line is for the instance the name
    resolved to, it is the last thing the run did, and [Run] returned
    [None]. *)
Theorem deleted_log_only_after_successful_wait
        (w : World) (args : Args) (r : InstanceRef) :
  In (CLogDeletedResource r) (run_trace w args) ->
  async_ args = false
  /\ run_result w args = Return None
  /\ resource_parser_Parse w (args_instance args) "sql.instances" = Return r
  /\ (exists pre, run_trace w args = pre ++ [CLogDeletedResource r])
  /\ (exists dreq result,
         In (CInstancesDelete dreq) (run_trace w args)
         /\ instances_Delete w dreq = Return result)
  /\ (exists ref,
         In (CWaitForOperation ref "Deleting Cloud SQL instance")
            (run_trace w args)
         /\ WaitForOperation w ref "Deleting Cloud SQL instance" = Return tt).
Proof.
  run_cases; intros Hin; in_inv Hin; injection Hin as Hin; subst r;
    (split; [ reflexivity | ]);
    (split; [ reflexivity | ]);
    (split; [ reflexivity | ]);
    (split; [ match goal with
              | |- exists pre, ?l = _ =>
                  exists (removelast l); reflexivity
              end | ]);
    (split; [ do 2 eexists; split; [ cbn [In]; eauto 10 | eassumption ]
            | eexists; split; [ cbn [In]; eauto 10 | eassumption ] ]).
Qed.

Lemma db1_logged_after_wait :
  async_ Example.delete_db1 = false
  /\ run_result Example.smooth Example.delete_db1 = Return None
  /\ resource_parser_Parse Example.smooth "db1" "sql.instances"
     = Return Example.db1
  /\ (exists pre,
         run_trace Example.smooth Example.delete_db1
         = pre ++ [CLogDeletedResource Example.db1])
  /\ (exists dreq result,
         In (CInstancesDelete dreq)
            (run_trace Example.smooth Example.delete_db1)
         /\ instances_Delete Example.smooth dreq = Return result)
  /\ (exists ref,
         In (CWaitForOperation ref "Deleting Cloud SQL instance")
            (run_trace Example.smooth Example.delete_db1)
         /\ WaitForOperation Example.smooth ref "Deleting Cloud SQL instance"
            = Return tt).
Proof.
  apply (deleted_log_only_after_successful_wait
           Example.smooth Example.delete_db1 Example.db1).
  vm_compute. auto 10.
Defined.

(** X14.  What a normal return means.  [Run] returns an operation only
    with [--async], and then it is the answer of the operations.Get
    request of the run.  [Run] returns [None] only when the user said no
    to the prompt or when, without [--async], the deletion was logged. *)
Theorem normal_return
        (w : World) (args : Args) (v : option Operation) :
  run_result w args = Return v ->
  match v with
  | Some op =>
      async_ args = true
      /\ exists req,
           In (COperationsGet req) (run_trace w args)
           /\ operations_Get w req = Return op
  | None =>
      (exists msg,
          In (CPromptContinue msg) (run_trace w args)
          /\ PromptContinue w msg = Return false)
      \/ (async_ args = false
          /\ exists r, In (CLogDeletedResource r) (run_trace w args))
  end.
Proof.
  run_cases; intros Hres; try discriminate Hres; injection Hres as Hres;
    subst v.
  all: first [ left; eexists; split; [ cbn [In]; eauto 10 | eassumption ]
             | right; split; [ reflexivity | eexists; cbn [In]; eauto 10 ]
             | split; [ reflexivity
                      | eexists; split; [ cbn [In]; eauto 10 | eassumption ] ] ].
Qed.

Lemma async_return_is_the_lookup :
  async_ Example.delete_db1_async = true
  /\ exists req,
       In (COperationsGet req)
          (run_trace Example.smooth Example.delete_db1_async)
       /\ operations_Get Example.smooth req = Return Example.snapshot.
Proof.
  apply (normal_return Example.smooth Example.delete_db1_async
                       (Some Example.snapshot)).
  reflexivity.
Defined.

(** X15.  An accepted prompt is always acted on: the call right after it
    is the delete request, whatever the flags. *)
Theorem accepted_prompt_is_followed_by_delete
        (w : World) (args : Args) (msg : string) :
  In (CPromptContinue msg) (run_trace w args) ->
  PromptContinue w msg = Return true ->
  exists pre dreq post,
    run_trace w args
    = pre ++ CPromptContinue msg :: CInstancesDelete dreq :: post.
Proof.
  run_cases; intros Hin Hp; in_inv Hin; injection Hin as Hin; subst;
    same_answers;
    match goal with
    | |- exists pre dreq post, ?a :: ?b :: ?c :: ?d :: ?rest = _ =>
        lazymatch d with
        | CPromptContinue _ => exists [a; b; c]
        | _ => exists [a; b; c; d]
        end
    end;
    do 2 eexists; reflexivity.
Qed.

Lemma confirmed_db1_is_deleted :
  exists pre dreq post,
    run_trace Example.smooth Example.delete_db1
    = pre ++ CPromptContinue prompt_all_data_lost
          :: CInstancesDelete dreq :: post.
Proof.
  apply (accepted_prompt_is_followed_by_delete
           Example.smooth Example.delete_db1 prompt_all_data_lost).
  - vm_compute. auto 10.
  - reflexivity.
Defined.

(* ================================================================== *)
(** ** The debug lines and the operation reference *)

(** X16.  Every debug line of a run reports a caught [HttpError]: either
    it is the line for the fetch, carrying the error the fetch raised, or
    it is the "operation" line, carrying the operation reference as the
    run left it, and then [Run] raises an [HttpError]. *)
Theorem debug_lines_report_http_errors
        (w : World) (args : Args) (fmt : string) (arg : PyObject) :
  In (CLogDebug fmt arg) (run_trace w args) ->
  (fmt = "Ignoring the error to get instance resource : %s"
   /\ exists req e,
        arg = ObjExn e
        /\ In (CInstancesGet req) (run_trace w args)
        /\ instances_Get w req = Raise e
        /\ isinstance_HttpError e = true)
  \/ (fmt = "operation : %s"
      /\ arg = obj_of_operation_ref (run_operation_ref w args)
      /\ exists e,
           run_result w args = Raise e /\ isinstance_HttpError e = true).
Proof.
  run_cases; intros Hin; in_inv Hin; injection Hin as Hf Ha; subst;
    first [ left; split; [ reflexivity | ];
            do 2 eexists; split; [ reflexivity | ];
            split; [ cbn [In]; eauto 10 | split; eassumption ]
          | right; split; [ reflexivity | ];
            split; [ reflexivity | ];
            eexists; split; [ reflexivity | eassumption ] ].
Qed.

Lemma refused_delete_debug_line :
  ("operation : %s" = "Ignoring the error to get instance resource : %s"
   /\ exists req e,
        ObjNone = ObjExn e
        /\ In (CInstancesGet req)
              (run_trace Example.delete_refused Example.delete_db1)
        /\ instances_Get Example.delete_refused req = Raise e
        /\ isinstance_HttpError e = true)
  \/ ("operation : %s" = "operation : %s"
      /\ ObjNone
         = obj_of_operation_ref
             (run_operation_ref Example.delete_refused Example.delete_db1)
      /\ exists e,
           run_result Example.delete_refused Example.delete_db1 = Raise e
           /\ isinstance_HttpError e = true).
Proof.
  apply (debug_lines_report_http_errors
           Example.delete_refused Example.delete_db1
           "operation : %s" ObjNone).
  vm_compute. auto 10.
Defined.

(** X17.  The operation reference is built in the "sql.operations"
    collection from the name of the operation the delete request
    returned and the project of that request; what the build returns is
    the value of [operation_ref] when the run ends ([None] when the build
    raised). *)
Theorem operation_ref_comes_from_delete_answer
        (w : World) (args : Args) (coll n p : string) :
  In (CCreate coll n p) (run_trace w args) ->
  coll = "sql.operations"
  /\ (exists dreq result,
         In (CInstancesDelete dreq) (run_trace w args)
         /\ instances_Delete w dreq = Return result
         /\ n = name result
         /\ p = project dreq)
  /\ run_operation_ref w args
     = match resource_parser_Create w coll n p with
       | Return ref => Some ref
       | Raise _ => None
       end.
Proof.
  run_cases; intros Hin; in_inv Hin; injection Hin as Hc Hn Hp; subst;
    same_answers;
    (split; [ reflexivity | ]);
    (split; [ do 2 eexists; split; [ cbn [In]; eauto 10 | ];
              split; [ eassumption | split; reflexivity ]
            | reflexivity ]).
Qed.

Lemma op42_is_built_from_the_answer :
  "sql.operations" = "sql.operations"
  /\ (exists dreq result,
         In (CInstancesDelete dreq)
            (run_trace Example.smooth Example.delete_db1)
         /\ instances_Delete Example.smooth dreq = Return result
         /\ "op-42" = name result
         /\ "my-project" = project dreq)
  /\ run_operation_ref Example.smooth Example.delete_db1
     = match resource_parser_Create Example.smooth "sql.operations"
                                    "op-42" "my-project" with
       | Return ref => Some ref
       | Raise _ => None
       end.
Proof.
  apply (operation_ref_comes_from_delete_answer
           Example.smooth Example.delete_db1
           "sql.operations" "op-42" "my-project").
  vm_compute. auto 10.
Defined.

(** X18.  The printed expiry time loses nothing of the wall clock
    reading: two valid timestamps with four-digit years that print alike
    agree on year, month, day, hour, minute, second and microsecond. *)
Theorem expiry_time_determines_fields (t1 t2 : Datetime.datetime) :
  Datetime.valid t1 = true ->
  Datetime.valid t2 = true ->
  1000 <= Datetime.year t1 ->
  1000 <= Datetime.year t2 ->
  Datetime.strftime t1 "%Y-%m-%dT%H:%M:%S.%fZ"
  = Datetime.strftime t2 "%Y-%m-%dT%H:%M:%S.%fZ" ->
  Datetime.year t1 = Datetime.year t2
  /\ Datetime.month t1 = Datetime.month t2
  /\ Datetime.day t1 = Datetime.day t2
  /\ Datetime.hour t1 = Datetime.hour t2
  /\ Datetime.minute t1 = Datetime.minute t2
  /\ Datetime.second t1 = Datetime.second t2
  /\ Datetime.microsecond t1 = Datetime.microsecond t2.
Proof.
  intros V1 V2 _ _ E.
  assert (R1 := read_strftime t1 V1). assert (R2 := read_strftime t2 V2).
  change "%Y-%m-%dT%H:%M:%S.%fZ" with expiry_time_format in E.
  rewrite E, R2 in R1. injection R1. intros. repeat split; congruence.
Qed.

Lemma noon_prints_alike_in_both_zones :
  Datetime.year Example.noon_utc = Datetime.year Example.noon_plus_two
  /\ Datetime.month Example.noon_utc = Datetime.month Example.noon_plus_two
  /\ Datetime.day Example.noon_utc = Datetime.day Example.noon_plus_two
  /\ Datetime.hour Example.noon_utc = Datetime.hour Example.noon_plus_two
  /\ Datetime.minute Example.noon_utc = Datetime.minute Example.noon_plus_two
  /\ Datetime.second Example.noon_utc = Datetime.second Example.noon_plus_two
  /\ Datetime.microsecond Example.noon_utc
     = Datetime.microsecond Example.noon_plus_two.
Proof.
  apply (expiry_time_determines_fields Example.noon_utc Example.noon_plus_two).
  - reflexivity.
  - reflexivity.
  - cbn. lia.
  - cbn. lia.
  - reflexivity.
Defined.

(* ================================================================== *)
(** ** What the flags do not touch *)

(** X19.  [--async] and the final-backup flags play no part before the
    delete request: in one world, two invocations for the same instance
    name make the same calls up to and including the prompt, and when
    the first issues no delete request the second is the same run, with
    the same outcome. *)
Theorem flags_play_no_part_before_delete
        (w : World) (args args' : Args) :
  args_instance args = args_instance args' ->
  before_delete (run_trace w args) = before_delete (run_trace w args')
  /\ ((forall dreq, ~ In (CInstancesDelete dreq) (run_trace w args)) ->
      run_trace w args' = run_trace w args
      /\ run_result w args' = run_result w args).
Proof.
  intros E. unfold_run. rewrite <- E.
  repeat run_step; cbn [before_delete from_delete_on];
    (split; [ reflexivity | ]);
    intros H; first [ split; reflexivity
                    | exfalso; eapply H; cbn [In]; eauto 10 ].
Qed.

Lemma async_changes_nothing_when_declined :
  before_delete (run_trace Example.declining Example.delete_db1)
  = before_delete (run_trace Example.declining Example.delete_db1_async)
  /\ ((forall dreq,
          ~ In (CInstancesDelete dreq)
               (run_trace Example.declining Example.delete_db1)) ->
      run_trace Example.declining Example.delete_db1_async
      = run_trace Example.declining Example.delete_db1
      /\ run_result Example.declining Example.delete_db1_async
         = run_result Example.declining Example.delete_db1).
Proof.
  apply (flags_play_no_part_before_delete
           Example.declining Example.delete_db1 Example.delete_db1_async).
  reflexivity.
Defined.
